(** * Inventory logic of AInventoryDemoCharacter

    A shallow embedding of the inventory part of
    [Source/InventoryDemo/InventoryDemoCharacter.cpp]:
    [AddInventoryItem], [RemoveInventoryItem], [EquipItem],
    [UnequipItem], [DropItem], [DrawItem] and [HolsterItem].  Camera,
    movement, input binding and delegate binding are engine plumbing
    and are left out.

    The member functions run in a small state-and-failure monad over the
    character object.  Every call into the inventory component is also
    recorded, so that "the store was not touched" is a statement about
    the run and not only about its final state. *)

From Stdlib Require Import ZArith List Bool Lia.
Import ListNotations.
Local Open Scope Z_scope.

(** ** Item handles *)

(** An [AItem_Usable] actor is known by its identity only. *)
Definition AItem_Usable := positive.

(** [AItem_Usable*]: a pointer is null or refers to an actor. *)
Inductive ItemPtr : Type :=
| nullptr
| item (a : AItem_Usable).

(** The C++ test [!p] on a pointer. *)
Definition is_null (p : ItemPtr) : bool :=
  match p with
  | nullptr => true
  | item _ => false
  end.

(** ** Slot enumeration *)

(** Modelled from the spec: the declaration of [enum class
    EInventorySlotType] lives in a header that is not part of the
    sources at hand.  The spec lists the enumerators Primary, Secondary
    and the sentinel Count, with Primary selecting index 0, Secondary
    index 1, and Count being the number of real slots, 2.  A value of an
    enum class is a value of its underlying integer type, so a slot is
    kept as that integer; this is what lets the [default:] branch of the
    switch in [EquipItem] be taken. *)
Module EInventorySlotType.
Definition t := Z.
Definition Primary : t := 0.
Definition Secondary : t := 1.
Definition Count : t := 2.
End EInventorySlotType.
Import EInventorySlotType.

(** [static_cast<int>(Slot)] and [static_cast<int32>(Slot)]. *)
Definition static_cast_int (Slot : EInventorySlotType.t) : Z := Slot.

(** ** The inventory component *)

(** The contract of [UInventoryComponent] that the character relies on.
    The component itself is defined elsewhere; the character only calls
    [GetNumItems], [GetItems] and [AddItem].  How [AddItem] changes the
    contents is the component's business and is left open here.  The one
    law is that the count is the number of stored items.  The delegates
    the component may fire on a change do not reach back into the state
    modelled here. *)
Class UInventoryComponent (Store : Type) : Type := {
  GetNumItems : Store -> Z;
  GetItems : Store -> list ItemPtr;
  AddItem : ItemPtr -> Store -> Store;
  GetNumItems_length :
    forall s, GetNumItems s = Z.of_nat (length (GetItems s))
}.

(** Modelled from the spec: a component whose [AddItem] appends the
    handle to the ordered item sequence (spec 4.1, "add(handle):
    appends", and "insertion order = slot order").  The real
    [UInventoryComponent] is not part of the sources at hand. *)
#[export] Instance AppendStore : UInventoryComponent (list ItemPtr) := {
  GetNumItems := fun s => Z.of_nat (length s);
  GetItems := fun s => s;
  AddItem := fun p s => s ++ [p];
  GetNumItems_length := fun s => eq_refl
}.

(** [TArray::operator[]]: an index outside [0, Num) is a failed check. *)
Definition TArray_at (a : list ItemPtr) (i : Z) : option ItemPtr :=
  if i <? 0 then None else nth_error a (Z.to_nat i).

(** ** The character object and its member-function monad *)

(** The two members the inventory logic reads and writes. *)
Record AInventoryDemoCharacter (Store : Type) : Type := mkCharacter {
  InventoryComponent : Store;
  EquippedItem : ItemPtr
}.
Arguments mkCharacter {Store} _ _.
Arguments InventoryComponent {Store} _.
Arguments EquippedItem {Store} _.

(** Calls made on the inventory component during a run. *)
Inductive StoreCall : Type :=
| CallGetNumItems
| CallAddItem (p : ItemPtr)
| CallGetItems.

(** What a member function does: it returns a value, leaves the object
    in a new state and has made some calls on the component; or it dies
    on an out-of-range array access. *)
Inductive Outcome (Store A : Type) : Type :=
| Returns (v : A) (this : AInventoryDemoCharacter Store)
          (calls : list StoreCall)
| IndexOutOfRange.
Arguments Returns {Store A} _ _ _.
Arguments IndexOutOfRange {Store A}.

Definition M (Store A : Type) : Type :=
  AInventoryDemoCharacter Store -> Outcome Store A.

Definition ret {Store A} (v : A) : M Store A :=
  fun this => Returns v this [].

Definition bind {Store A B} (m : M Store A) (k : A -> M Store B)
  : M Store B :=
  fun this =>
    match m this with
    | Returns v this1 calls1 =>
        match k v this1 with
        | Returns w this2 calls2 => Returns w this2 (calls1 ++ calls2)
        | IndexOutOfRange => IndexOutOfRange
        end
    | IndexOutOfRange => IndexOutOfRange
    end.

Declare Scope member_scope.
Delimit Scope member_scope with member.
Notation "x <- m ;; k" := (bind m (fun x => k))
  (at level 61, m at next level, right associativity) : member_scope.
Notation "m ;; k" := (bind m (fun _ => k))
  (at level 61, right associativity) : member_scope.
Local Open Scope member_scope.

Section Character.
Context {Store : Type} `{UInventoryComponent Store}.

Abbreviation Character := (AInventoryDemoCharacter Store).

(** [InventoryComponent->GetNumItems()] *)
Definition call_GetNumItems : M Store Z :=
  fun this =>
    Returns (GetNumItems (InventoryComponent this)) this [CallGetNumItems].

(** [InventoryComponent->AddItem(InItem)] *)
Definition call_AddItem (InItem : ItemPtr) : M Store unit :=
  fun this =>
    Returns tt
      (mkCharacter (AddItem InItem (InventoryComponent this))
                   (EquippedItem this))
      [CallAddItem InItem].

(** [InventoryComponent->GetItems()[i]] *)
Definition call_GetItems_at (i : Z) : M Store ItemPtr :=
  fun this =>
    match TArray_at (GetItems (InventoryComponent this)) i with
    | Some p => Returns p this [CallGetItems]
    | None => IndexOutOfRange
    end.

(** Reading the member [EquippedItem]. *)
Definition read_EquippedItem : M Store ItemPtr :=
  fun this => Returns (EquippedItem this) this [].

(** [EquippedItem = p;] *)
Definition assign_EquippedItem (p : ItemPtr) : M Store unit :=
  fun this => Returns tt (mkCharacter (InventoryComponent this) p) [].

(** [bool AInventoryDemoCharacter::AddInventoryItem(AItem_Usable* InItem)] *)
Definition AddInventoryItem (InItem : ItemPtr) : M Store bool :=
  oldItemCount <- call_GetNumItems ;;
  (if oldItemCount <? static_cast_int Count
   then call_AddItem InItem
   else ret tt) ;;
  newItemCount <- call_GetNumItems ;;
  ret (newItemCount >? oldItemCount).

(** [void AInventoryDemoCharacter::RemoveInventoryItem(AItem_Usable* InItem)]:
    the body is empty. *)
Definition RemoveInventoryItem (InItem : ItemPtr) : M Store unit :=
  ret tt.

(** [void AInventoryDemoCharacter::EquipItem(EInventorySlotType)].
    The switch is the chain of comparisons against the case labels,
    in their order, ending in [default]. *)
Definition EquipItem (Slot : EInventorySlotType.t) : M Store unit :=
  n <- call_GetNumItems ;;
  if n >? 0 then
    equipped <- read_EquippedItem ;;
    if is_null equipped then
      if Slot =? Primary then
        p <- call_GetItems_at (static_cast_int Slot) ;;
        assign_EquippedItem p
      else if Slot =? Secondary then
        n' <- call_GetNumItems ;;
        if n' >? static_cast_int Secondary then
          p <- call_GetItems_at (static_cast_int Slot) ;;
          assign_EquippedItem p
        else ret tt
      else if Slot =? Count then
        p <- call_GetItems_at 0 ;;
        assign_EquippedItem p
      else ret tt
    else ret tt
  else ret tt.

(** [void AInventoryDemoCharacter::UnequipItem()]: the body is empty. *)
Definition UnequipItem : M Store unit :=
  ret tt.

(** *** Clients *)

(** A run of [AddInventoryItem] calls, one per handle, in order. *)
Fixpoint AddInventoryItems (InItems : list ItemPtr) : M Store unit :=
  match InItems with
  | [] => ret tt
  | InItem :: rest => AddInventoryItem InItem ;; AddInventoryItems rest
  end.

(** What an input layer can ask of the equip machinery. *)
Inductive EquipRequest : Type :=
| RequestEquip (Slot : EInventorySlotType.t)
| RequestUnequip.

Definition serve (r : EquipRequest) : M Store unit :=
  match r with
  | RequestEquip Slot => EquipItem Slot
  | RequestUnequip => UnequipItem
  end.

Fixpoint serve_all (rs : list EquipRequest) : M Store unit :=
  match rs with
  | [] => ret tt
  | r :: rest => serve r ;; serve_all rest
  end.

Definition count (this : Character) : Z :=
  GetNumItems (InventoryComponent this).

Definition items (this : Character) : list ItemPtr :=
  GetItems (InventoryComponent this).

(** [void AInventoryDemoCharacter::DropItem()]: the body is empty. *)
Definition DropItem : M Store unit :=
  ret tt.

(** [void AInventoryDemoCharacter::DrawItem()]: the body is empty. *)
Definition DrawItem : M Store unit :=
  ret tt.

(** [void AInventoryDemoCharacter::HolsterItem()]: the body is empty. *)
Definition HolsterItem : M Store unit :=
  ret tt.

(** The inventory member functions a caller can invoke, with their
    arguments. *)
Inductive InventoryCall : Type :=
| DoAddInventoryItem (InItem : ItemPtr)
| DoRemoveInventoryItem (InItem : ItemPtr)
| DoEquipItem (Slot : EInventorySlotType.t)
| DoUnequipItem
| DoDropItem
| DoDrawItem
| DoHolsterItem.

(** One call; the [bool] of [AddInventoryItem] is dropped. *)
Definition perform (c : InventoryCall) : M Store unit :=
  match c with
  | DoAddInventoryItem InItem => AddInventoryItem InItem ;; ret tt
  | DoRemoveInventoryItem InItem => RemoveInventoryItem InItem
  | DoEquipItem Slot => EquipItem Slot
  | DoUnequipItem => UnequipItem
  | DoDropItem => DropItem
  | DoDrawItem => DrawItem
  | DoHolsterItem => HolsterItem
  end.

(** A series of calls, in order. *)
Fixpoint perform_all (cs : list InventoryCall) : M Store unit :=
  match cs with
  | [] => ret tt
  | c :: rest => perform c ;; perform_all rest
  end.

End Character.

(** ** Concrete items and states

    Three distinct items, and a character over the appending component,
    for the scenarios further down. *)
Definition itemX : ItemPtr := item 1%positive.
Definition itemY : ItemPtr := item 2%positive.
Definition itemZ : ItemPtr := item 3%positive.

Definition holding (stored : list ItemPtr) (equipped : ItemPtr)
  : AInventoryDemoCharacter (list ItemPtr) :=
  mkCharacter stored equipped.


(** * Properties *)

Section Properties.
Context {Store : Type} `{UInventoryComponent Store}.

Abbreviation Character := (AInventoryDemoCharacter Store).

(** ** Case analysis of [AddInventoryItem] *)

Lemma AddInventoryItem_full (this : Character) (InItem : ItemPtr) :
  Count <= count this ->
  AddInventoryItem InItem this
  = Returns false this [CallGetNumItems; CallGetNumItems].
Proof.
  intros Hfull. unfold AddInventoryItem, bind, call_GetNumItems, ret.
  unfold count, static_cast_int in *.
  destruct (Z.ltb_spec (GetNumItems (InventoryComponent this)) Count) as [Hlt | _].
  - lia.
  - cbn. rewrite Z.gtb_ltb, Z.ltb_irrefl. reflexivity.
Qed.

Lemma AddInventoryItem_room (this : Character) (InItem : ItemPtr) :
  count this < Count ->
  AddInventoryItem InItem this
  = Returns
      (GetNumItems (AddItem InItem (InventoryComponent this)) >? count this)
      (mkCharacter (AddItem InItem (InventoryComponent this))
                   (EquippedItem this))
      [CallGetNumItems; CallAddItem InItem; CallGetNumItems].
Proof.
  intros Hroom. unfold AddInventoryItem, bind, call_GetNumItems, ret.
  unfold count, static_cast_int in *.
  destruct (Z.ltb_spec (GetNumItems (InventoryComponent this)) Count) as [_ | Hge].
  - reflexivity.
  - lia.
Qed.

(** C1: [AddInventoryItem] always returns, and its result is [true]
    exactly when the component's item count after the call is strictly
    greater than before it; with the component already holding [Count]
    items or more the result is [false].  This holds whatever the
    component's [AddItem] does. *)
Theorem AddInventoryItem_true_iff_count_increased
    (this : Character) (InItem : ItemPtr) :
  exists (b : bool) (this' : Character) (calls : list StoreCall),
    AddInventoryItem InItem this = Returns b this' calls
    /\ b = (count this' >? count this)
    /\ (b = true <-> count this < count this')
    /\ (Count <= count this -> b = false).
Proof.
  destruct (Z.lt_ge_cases (count this) Count) as [Hroom | Hfull].
  - rewrite (AddInventoryItem_room this InItem Hroom).
    eexists _, _, _. split; [reflexivity |]. cbn [InventoryComponent].
    unfold count at 1 3 4. cbn [InventoryComponent].
    repeat split.
    + rewrite Z.gtb_ltb. apply Z.ltb_lt.
    + rewrite Z.gtb_ltb. apply Z.ltb_lt.
    + intros Hfull. lia.
  - rewrite (AddInventoryItem_full this InItem Hfull).
    exists false, this, [CallGetNumItems; CallGetNumItems].
    split; [reflexivity |]. repeat split.
    + rewrite Z.gtb_ltb, Z.ltb_irrefl. reflexivity.
    + discriminate.
    + lia.
Qed.

(** C3: with the component at capacity, [AddInventoryItem] returns
    [false], leaves the character (component contents and equipped item)
    exactly as it was, only reads the count twice and never calls
    [AddItem]; it does not fail. *)
Theorem AddInventoryItem_at_capacity_noop
    (this : Character) (InItem : ItemPtr) :
  count this >= 2 ->
  AddInventoryItem InItem this
  = Returns false this [CallGetNumItems; CallGetNumItems].
Proof.
  intros Hfull. apply AddInventoryItem_full. unfold Count. lia.
Qed.

(** C9: [RemoveInventoryItem] takes any handle, changes nothing, calls
    nothing on the component and returns no value. *)
Theorem RemoveInventoryItem_noop (this : Character) (InItem : ItemPtr) :
  RemoveInventoryItem InItem this = Returns tt this [].
Proof. reflexivity. Qed.

(** ** Case analysis of [EquipItem] *)

Lemma TArray_at_in_range (a : list ItemPtr) (i : Z) :
  0 <= i < Z.of_nat (length a) ->
  exists p, TArray_at a i = Some p.
Proof.
  intros [Hlo Hhi]. unfold TArray_at.
  destruct (Z.ltb_spec i 0) as [Hneg | _]; [lia |].
  destruct (nth_error a (Z.to_nat i)) as [p |] eqn:Hnth.
  - exists p. reflexivity.
  - apply nth_error_None in Hnth. lia.
Qed.

Lemma count_nonneg (this : Character) : 0 <= count this.
Proof. unfold count. rewrite GetNumItems_length. lia. Qed.

Lemma EquipItem_no_items (this : Character) (Slot : EInventorySlotType.t) :
  count this <= 0 ->
  EquipItem Slot this = Returns tt this [CallGetNumItems].
Proof.
  intros Hnone. unfold EquipItem, bind, call_GetNumItems, count in *.
  rewrite Z.gtb_ltb.
  destruct (Z.ltb_spec 0 (GetNumItems (InventoryComponent this))); [lia |].
  reflexivity.
Qed.

Lemma EquipItem_already_equipped
    (this : Character) (Slot : EInventorySlotType.t) :
  is_null (EquippedItem this) = false ->
  EquipItem Slot this = Returns tt this [CallGetNumItems].
Proof.
  intros Hheld. unfold EquipItem, bind, call_GetNumItems, read_EquippedItem.
  destruct (GetNumItems (InventoryComponent this) >? 0); [| reflexivity].
  rewrite Hheld. reflexivity.
Qed.

Lemma bind_GetNumItems_ext {A} (k1 k2 : Z -> M Store A) (this : Character) :
  k1 (GetNumItems (InventoryComponent this)) this
  = k2 (GetNumItems (InventoryComponent this)) this ->
  bind call_GetNumItems k1 this = bind call_GetNumItems k2 this.
Proof.
  intros Hk. unfold bind, call_GetNumItems. rewrite Hk. reflexivity.
Qed.

(** The run of [EquipItem] once both guards have been passed: what is
    left is the switch. *)
Lemma EquipItem_switch (this : Character) (Slot : EInventorySlotType.t) :
  0 < count this ->
  is_null (EquippedItem this) = true ->
  EquipItem Slot this
  = bind call_GetNumItems (fun _ =>
      if Slot =? Primary then
        p <- call_GetItems_at (static_cast_int Slot) ;;
        assign_EquippedItem p
      else if Slot =? Secondary then
        n' <- call_GetNumItems ;;
        if n' >? static_cast_int Secondary then
          p <- call_GetItems_at (static_cast_int Slot) ;;
          assign_EquippedItem p
        else ret tt
      else if Slot =? Count then
        p <- call_GetItems_at 0 ;;
        assign_EquippedItem p
      else ret tt) this.
Proof.
  intros Hsome Hfree. unfold EquipItem.
  apply bind_GetNumItems_ext. fold (count this).
  rewrite Z.gtb_ltb.
  destruct (Z.ltb_spec 0 (count this)); [| lia].
  unfold bind at 1, read_EquippedItem. rewrite Hfree.
  match goal with
  | |- match ?m this with _ => _ end = _ => destruct (m this)
  end; reflexivity.
Qed.

Lemma EquipItem_first (this : Character) (Slot : EInventorySlotType.t) :
  0 < count this ->
  is_null (EquippedItem this) = true ->
  Slot = Primary \/ Slot = Count ->
  exists p,
    TArray_at (items this) 0 = Some p
    /\ EquipItem Slot this
       = Returns tt (mkCharacter (InventoryComponent this) p)
           [CallGetNumItems; CallGetItems].
Proof.
  intros Hsome Hfree Hslot.
  destruct (TArray_at_in_range (items this) 0) as [p Hp].
  { unfold items. rewrite <- GetNumItems_length. fold (count this). lia. }
  exists p. split; [exact Hp |].
  rewrite (EquipItem_switch this Slot Hsome Hfree).
  unfold items in Hp.
  destruct Hslot as [-> | ->];
    cbv beta iota delta [Z.eqb Primary Secondary Count static_cast_int
                         Pos.eqb];
    unfold bind, call_GetNumItems, call_GetItems_at, assign_EquippedItem;
    rewrite Hp; reflexivity.
Qed.

Lemma EquipItem_Secondary_present (this : Character) :
  1 < count this ->
  is_null (EquippedItem this) = true ->
  exists p,
    TArray_at (items this) 1 = Some p
    /\ EquipItem Secondary this
       = Returns tt (mkCharacter (InventoryComponent this) p)
           [CallGetNumItems; CallGetNumItems; CallGetItems].
Proof.
  intros Htwo Hfree.
  destruct (TArray_at_in_range (items this) 1) as [p Hp].
  { unfold items. rewrite <- GetNumItems_length. fold (count this). lia. }
  exists p. split; [exact Hp |].
  rewrite (EquipItem_switch this Secondary) by (assumption || lia).
  unfold items in Hp. unfold count in Htwo.
  cbv beta iota delta [Z.eqb Primary Secondary Count static_cast_int
                       Pos.eqb].
  unfold bind, call_GetNumItems, call_GetItems_at, assign_EquippedItem.
  rewrite Z.gtb_ltb.
  destruct (Z.ltb_spec 1 (GetNumItems (InventoryComponent this))); [| lia].
  rewrite Hp. reflexivity.
Qed.

Lemma EquipItem_Secondary_absent (this : Character) :
  0 < count this <= 1 ->
  is_null (EquippedItem this) = true ->
  EquipItem Secondary this
  = Returns tt this [CallGetNumItems; CallGetNumItems].
Proof.
  intros [Hsome Hone] Hfree.
  rewrite (EquipItem_switch this Secondary Hsome Hfree).
  unfold count in Hone.
  cbv beta iota delta [Z.eqb Primary Secondary Count static_cast_int
                       Pos.eqb].
  unfold bind, call_GetNumItems.
  rewrite Z.gtb_ltb.
  destruct (Z.ltb_spec 1 (GetNumItems (InventoryComponent this))); [lia |].
  reflexivity.
Qed.

Lemma EquipItem_default (this : Character) (Slot : EInventorySlotType.t) :
  0 < count this ->
  is_null (EquippedItem this) = true ->
  Slot <> Primary -> Slot <> Secondary -> Slot <> Count ->
  EquipItem Slot this = Returns tt this [CallGetNumItems].
Proof.
  intros Hsome Hfree HP HS HC.
  rewrite (EquipItem_switch this Slot Hsome Hfree).
  apply Z.eqb_neq in HP, HS, HC.
  unfold bind, call_GetNumItems. rewrite HP, HS, HC. reflexivity.
Qed.

(** ** Equipping *)

(** C4: with no item in the component, [EquipItem] of any slot value
    returns with the character exactly as it was, so an empty
    [EquippedItem] stays empty; the only call on the component is the
    count query of the outer guard: the item array is not read and
    nothing is added. *)
Theorem EquipItem_empty_inventory_noop
    (this : Character) (Slot : EInventorySlotType.t) :
  count this = 0 ->
  EquipItem Slot this = Returns tt this [CallGetNumItems].
Proof.
  intros Hzero. apply EquipItem_no_items. lia.
Qed.

(** C5: with exactly one item and nothing equipped, [EquipItem] of
    Secondary returns with the character exactly as it was: the inner
    guard [GetNumItems() > 1] fails, so index 1 is never read and
    [EquippedItem] stays empty. *)
Theorem EquipItem_Secondary_single_item_noop (this : Character) :
  count this = 1 ->
  is_null (EquippedItem this) = true ->
  EquipItem Secondary this
  = Returns tt this [CallGetNumItems; CallGetNumItems].
Proof.
  intros Hone Hfree. apply EquipItem_Secondary_absent; [lia | exact Hfree].
Qed.

(** C7: with at least one item and nothing equipped, [EquipItem] of the
    Count sentinel reads index 0, which exists, and stores that handle
    in [EquippedItem]; the whole run is the same as that of [EquipItem]
    of Primary. *)
Theorem EquipItem_Count_same_as_Primary (this : Character) :
  count this > 0 ->
  is_null (EquippedItem this) = true ->
  exists p,
    TArray_at (items this) 0 = Some p
    /\ EquipItem Count this
       = Returns tt (mkCharacter (InventoryComponent this) p)
           [CallGetNumItems; CallGetItems]
    /\ EquipItem Count this = EquipItem Primary this.
Proof.
  intros Hsome Hfree. apply Z.gt_lt in Hsome.
  destruct (EquipItem_first this Count Hsome Hfree (or_intror eq_refl))
    as (p & Hp & HCount).
  destruct (EquipItem_first this Primary Hsome Hfree (or_introl eq_refl))
    as (q & Hq & HPrimary).
  exists p. split; [exact Hp |]. split; [exact HCount |].
  rewrite HCount, HPrimary. congruence.
Qed.

(** C8: in a state with at least one item and nothing equipped, where
    the stored handles are item handles (each refers to an item; none
    is the empty value), [EquipItem] of Primary returns, leaves the
    component as it was and sets [EquippedItem] to the handle at index
    0, which exists; [EquippedItem] is then non-empty. *)
Theorem EquipItem_Primary_equips_first_item (this : Character) :
  count this > 0 ->
  is_null (EquippedItem this) = true ->
  Forall (fun h => is_null h = false) (items this) ->
  exists p this',
    TArray_at (items this) 0 = Some p
    /\ EquipItem Primary this
       = Returns tt this' [CallGetNumItems; CallGetItems]
    /\ InventoryComponent this' = InventoryComponent this
    /\ EquippedItem this' = p
    /\ is_null (EquippedItem this') = false.
Proof.
  intros Hsome Hfree Hhandles. apply Z.gt_lt in Hsome.
  destruct (EquipItem_first this Primary Hsome Hfree (or_introl eq_refl))
    as (p & Hp & HPrimary).
  exists p, (mkCharacter (InventoryComponent this) p).
  split; [exact Hp |]. split; [exact HPrimary |].
  cbn [InventoryComponent EquippedItem].
  split; [reflexivity |]. split; [reflexivity |].
  rewrite Forall_forall in Hhandles. apply Hhandles.
  unfold TArray_at in Hp. destruct (0 <? 0); [discriminate |].
  exact (nth_error_In _ _ Hp).
Qed.

(** C10: [EquipItem] never reads the item array out of range.  For every
    character state and every slot value the call returns; the
    out-of-range outcome does not occur. *)
Theorem EquipItem_never_out_of_range
    (this : Character) (Slot : EInventorySlotType.t) :
  exists (this' : Character) (calls : list StoreCall),
    EquipItem Slot this = Returns tt this' calls.
Proof.
  destruct (Z.lt_ge_cases 0 (count this)) as [Hsome | Hnone].
  2: { eexists _, _. apply EquipItem_no_items. lia. }
  destruct (is_null (EquippedItem this)) eqn:Hfree.
  2: { eexists _, _. apply EquipItem_already_equipped. exact Hfree. }
  destruct (Z.eq_dec Slot Primary) as [HP | HP].
  { destruct (EquipItem_first this Slot Hsome Hfree (or_introl HP))
      as (p & _ & Hrun).
    eexists _, _. exact Hrun. }
  destruct (Z.eq_dec Slot Count) as [HC | HC].
  { destruct (EquipItem_first this Slot Hsome Hfree (or_intror HC))
      as (p & _ & Hrun).
    eexists _, _. exact Hrun. }
  destruct (Z.eq_dec Slot Secondary) as [-> | HS].
  - destruct (Z.lt_ge_cases 1 (count this)) as [Htwo | Hone].
    + destruct (EquipItem_Secondary_present this Htwo Hfree)
        as (p & _ & Hrun).
      eexists _, _. exact Hrun.
    + eexists _, _. apply EquipItem_Secondary_absent; [lia | exact Hfree].
  - eexists _, _. apply EquipItem_default; assumption.
Qed.

(** ** Equip requests while an item is held *)

Lemma serve_held (this : Character) (r : EquipRequest) :
  is_null (EquippedItem this) = false ->
  exists calls, serve r this = Returns tt this calls.
Proof.
  intros Hheld. destruct r as [Slot |]; cbn [serve].
  - eexists. apply EquipItem_already_equipped. exact Hheld.
  - eexists. reflexivity.
Qed.

(** C6, as the code has it: once [EquippedItem] is non-null, [EquipItem]
    of any slot value returns with the character exactly as it was, and
    so does [UnequipItem], whose body is empty: it does not clear
    [EquippedItem].  Hence after any series of equip and unequip
    requests the character is still exactly as it was. *)
Theorem EquippedItem_held_is_kept (this : Character) :
  is_null (EquippedItem this) = false ->
  (forall Slot, EquipItem Slot this = Returns tt this [CallGetNumItems])
  /\ UnequipItem this = Returns tt this []
  /\ (forall rs, exists calls, serve_all rs this = Returns tt this calls).
Proof.
  intros Hheld. split; [| split].
  - intros Slot. apply EquipItem_already_equipped. exact Hheld.
  - reflexivity.
  - intros rs. induction rs as [| r rest IH]; cbn [serve_all].
    + eexists. reflexivity.
    + destruct (serve_held this r Hheld) as [calls1 Hr].
      destruct IH as [calls2 Hrest].
      exists (calls1 ++ calls2). unfold bind. rewrite Hr, Hrest.
      reflexivity.
Qed.

(** ** The capacity bound *)

Section AppendingComponent.
Hypothesis AddItem_appends :
  forall (p : ItemPtr) (s : Store), GetItems (AddItem p s) = GetItems s ++ [p].

Lemma AddInventoryItem_keeps_bound (this : Character) (InItem : ItemPtr) :
  count this <= 2 ->
  exists (b : bool) (this' : Character) (calls : list StoreCall),
    AddInventoryItem InItem this = Returns b this' calls
    /\ count this' <= 2.
Proof.
  intros Hbound.
  destruct (Z.lt_ge_cases (count this) Count) as [Hroom | Hfull].
  - rewrite (AddInventoryItem_room this InItem Hroom).
    eexists _, _, _. split; [reflexivity |].
    unfold count in *. cbn [InventoryComponent].
    rewrite GetNumItems_length in Hroom |- *.
    rewrite AddItem_appends, length_app. cbn [length].
    unfold Count in Hroom. lia.
  - rewrite (AddInventoryItem_full this InItem Hfull).
    eexists _, _, _. split; [reflexivity | exact Hbound].
Qed.

Lemma AddInventoryItems_keep_bound (InItems : list ItemPtr) :
  forall this : Character,
    count this <= 2 ->
    exists (this' : Character) (calls : list StoreCall),
      AddInventoryItems InItems this = Returns tt this' calls
      /\ count this' <= 2.
Proof.
  induction InItems as [| InItem rest IH]; intros this Hbound;
    cbn [AddInventoryItems].
  - eexists _, _. split; [reflexivity | exact Hbound].
  - destruct (AddInventoryItem_keeps_bound this InItem Hbound)
      as (b & this1 & calls1 & Hadd & Hbound1).
    destruct (IH this1 Hbound1) as (this2 & calls2 & Hrest & Hbound2).
    exists this2, (calls1 ++ calls2). split; [| exact Hbound2].
    unfold bind. rewrite Hadd, Hrest. reflexivity.
Qed.

(** C2: when the component's [AddItem] appends the handle, a count of at
    most 2 is kept by every [AddInventoryItem] call, and every series of
    [AddInventoryItem] calls started on an empty component runs to its
    end and leaves at most 2 items. *)
Theorem AddInventoryItem_count_at_most_two :
  (forall (this : Character) (InItem : ItemPtr),
      count this <= 2 ->
      exists (b : bool) (this' : Character) (calls : list StoreCall),
        AddInventoryItem InItem this = Returns b this' calls
        /\ count this' <= 2)
  /\ (forall (this : Character) (InItems : list ItemPtr),
         items this = [] ->
         exists (this' : Character) (calls : list StoreCall),
           AddInventoryItems InItems this = Returns tt this' calls
           /\ count this' <= 2).
Proof.
  split.
  - exact AddInventoryItem_keeps_bound.
  - intros this InItems Hempty. apply AddInventoryItems_keep_bound.
    unfold count. rewrite GetNumItems_length.
    unfold items in Hempty. rewrite Hempty. cbn. lia.
Qed.

End AppendingComponent.

End Properties.

(** * Further properties of the inventory functions *)

Section Frames.
Context {Store : Type} `{UInventoryComponent Store}.

Abbreviation Character := (AInventoryDemoCharacter Store).

Lemma TArray_at_In (a : list ItemPtr) (i : Z) (p : ItemPtr) :
  TArray_at a i = Some p -> In p a.
Proof.
  unfold TArray_at. destruct (i <? 0); [discriminate |].
  apply nth_error_In.
Qed.

Lemma Character_eta (this : Character) :
  mkCharacter (InventoryComponent this) (EquippedItem this) = this.
Proof. destruct this. reflexivity. Qed.

(** Every run of [EquipItem], in one statement: the component is kept,
    the calls are reads, and [EquippedItem] is either what it was or, if
    it was null, one of the stored handles. *)
Lemma EquipItem_outcome (this : Character) (Slot : EInventorySlotType.t) :
  exists (p : ItemPtr) (calls : list StoreCall),
    EquipItem Slot this
    = Returns tt (mkCharacter (InventoryComponent this) p) calls
    /\ (p = EquippedItem this
        \/ (0 < count this
            /\ is_null (EquippedItem this) = true
            /\ In p (items this)))
    /\ (forall q, ~ In (CallAddItem q) calls).
Proof.
  assert (Hreads1 : forall q, ~ In (CallAddItem q) [CallGetNumItems]).
  { intros q [Hq | []]. discriminate. }
  assert (Hreads2 : forall q,
             ~ In (CallAddItem q) [CallGetNumItems; CallGetItems]).
  { intros q [Hq | [Hq | []]]; discriminate. }
  assert (Hreads3 : forall q,
             ~ In (CallAddItem q) [CallGetNumItems; CallGetNumItems]).
  { intros q [Hq | [Hq | []]]; discriminate. }
  assert (Hreads4 : forall q,
             ~ In (CallAddItem q)
               [CallGetNumItems; CallGetNumItems; CallGetItems]).
  { intros q [Hq | [Hq | [Hq | []]]]; discriminate. }
  destruct (Z.lt_ge_cases 0 (count this)) as [Hsome | Hnone].
  2: { exists (EquippedItem this), [CallGetNumItems].
       rewrite Character_eta. split; [| split; [left; reflexivity | exact Hreads1]].
       apply EquipItem_no_items. lia. }
  destruct (is_null (EquippedItem this)) eqn:Hfree.
  2: { exists (EquippedItem this), [CallGetNumItems].
       rewrite Character_eta. split; [| split; [left; reflexivity | exact Hreads1]].
       apply EquipItem_already_equipped. exact Hfree. }
  destruct (Z.eq_dec Slot Primary) as [HP | HP].
  { destruct (EquipItem_first this Slot Hsome Hfree (or_introl HP))
      as (p & Hp & Hrun).
    exists p, [CallGetNumItems; CallGetItems].
    split; [exact Hrun | split; [| exact Hreads2]].
    right. repeat split; try assumption. exact (TArray_at_In _ _ _ Hp). }
  destruct (Z.eq_dec Slot Count) as [HC | HC].
  { destruct (EquipItem_first this Slot Hsome Hfree (or_intror HC))
      as (p & Hp & Hrun).
    exists p, [CallGetNumItems; CallGetItems].
    split; [exact Hrun | split; [| exact Hreads2]].
    right. repeat split; try assumption. exact (TArray_at_In _ _ _ Hp). }
  destruct (Z.eq_dec Slot Secondary) as [-> | HS].
  - destruct (Z.lt_ge_cases 1 (count this)) as [Htwo | Hone].
    + destruct (EquipItem_Secondary_present this Htwo Hfree)
        as (p & Hp & Hrun).
      exists p, [CallGetNumItems; CallGetNumItems; CallGetItems].
      split; [exact Hrun | split; [| exact Hreads4]].
      right. repeat split; try assumption. exact (TArray_at_In _ _ _ Hp).
    + exists (EquippedItem this), [CallGetNumItems; CallGetNumItems].
      rewrite Character_eta.
      split; [| split; [left; reflexivity | exact Hreads3]].
      apply EquipItem_Secondary_absent; [lia | exact Hfree].
  - exists (EquippedItem this), [CallGetNumItems].
    rewrite Character_eta. split; [| split; [left; reflexivity | exact Hreads1]].
    apply EquipItem_default; assumption.
Qed.

(** X1: [EquipItem] never changes the inventory component.  For every
    state and every slot value it returns, the component afterwards is
    the one before, and no [AddItem] call was made. *)
Theorem EquipItem_keeps_component
    (this : Character) (Slot : EInventorySlotType.t) :
  exists (this' : Character) (calls : list StoreCall),
    EquipItem Slot this = Returns tt this' calls
    /\ InventoryComponent this' = InventoryComponent this
    /\ (forall q, ~ In (CallAddItem q) calls).
Proof.
  destruct (EquipItem_outcome this Slot) as (p & calls & Hrun & _ & Hreads).
  exists (mkCharacter (InventoryComponent this) p), calls.
  split; [exact Hrun | split; [reflexivity | exact Hreads]].
Qed.

(** X2: with at least two items and nothing equipped, [EquipItem] of
    Secondary reads index 1, which exists, and stores that handle in
    [EquippedItem]; the component is left as it was. *)
Theorem EquipItem_Secondary_takes_second (this : Character) :
  count this > 1 ->
  is_null (EquippedItem this) = true ->
  exists p,
    TArray_at (items this) 1 = Some p
    /\ EquipItem Secondary this
       = Returns tt (mkCharacter (InventoryComponent this) p)
           [CallGetNumItems; CallGetNumItems; CallGetItems].
Proof.
  intros Htwo Hfree. apply EquipItem_Secondary_present; [lia | exact Hfree].
Qed.

(** X3: a slot value that is none of Primary, Secondary and Count takes
    the [default] branch at best: in every state [EquipItem] returns
    with the character exactly as it was, having only read the count
    once. *)
Theorem EquipItem_unlisted_slot_noop
    (this : Character) (Slot : EInventorySlotType.t) :
  Slot <> Primary -> Slot <> Secondary -> Slot <> Count ->
  EquipItem Slot this = Returns tt this [CallGetNumItems].
Proof.
  intros HP HS HC.
  destruct (Z.lt_ge_cases 0 (count this)) as [Hsome | Hnone].
  - destruct (is_null (EquippedItem this)) eqn:Hfree.
    + apply EquipItem_default; assumption.
    + apply EquipItem_already_equipped. exact Hfree.
  - apply EquipItem_no_items. lia.
Qed.

(** X4: [AddInventoryItem] never touches [EquippedItem], and it changes
    the component by at most one [AddItem] of the handle it was given:
    the component afterwards is either the one before, with no [AddItem]
    call made, or the result of that single call. *)
Theorem AddInventoryItem_frame (this : Character) (InItem : ItemPtr) :
  exists (b : bool) (this' : Character) (calls : list StoreCall),
    AddInventoryItem InItem this = Returns b this' calls
    /\ EquippedItem this' = EquippedItem this
    /\ ((InventoryComponent this' = InventoryComponent this
         /\ calls = [CallGetNumItems; CallGetNumItems])
        \/ (InventoryComponent this'
            = AddItem InItem (InventoryComponent this)
            /\ calls
               = [CallGetNumItems; CallAddItem InItem; CallGetNumItems])).
Proof.
  destruct (Z.lt_ge_cases (count this) Count) as [Hroom | Hfull].
  - rewrite (AddInventoryItem_room this InItem Hroom).
    eexists _, _, _. split; [reflexivity |]. split; [reflexivity |].
    right. split; reflexivity.
  - rewrite (AddInventoryItem_full this InItem Hfull).
    eexists _, _, _. split; [reflexivity |]. split; [reflexivity |].
    left. split; reflexivity.
Qed.

(** X5: [EquipItem] is idempotent.  In every state and for every slot
    value, a second [EquipItem] of the same slot right after the first
    returns with the character exactly as the first one left it. *)
Theorem EquipItem_idempotent
    (this : Character) (Slot : EInventorySlotType.t) :
  exists (this1 : Character) (calls1 calls2 : list StoreCall),
    EquipItem Slot this = Returns tt this1 calls1
    /\ EquipItem Slot this1 = Returns tt this1 calls2.
Proof.
  destruct (EquipItem_outcome this Slot)
    as (p & calls & Hrun & [Hsame | (Hsome & Hfree & _)] & _).
  - subst p. rewrite Character_eta in Hrun.
    exists this, calls, calls. split; exact Hrun.
  - destruct p as [| a].
    + assert (Hnull : EquippedItem this = nullptr).
      { destruct (EquippedItem this); [reflexivity | discriminate]. }
      rewrite <- Hnull, Character_eta in Hrun.
      exists this, calls, calls. split; exact Hrun.
    + exists (mkCharacter (InventoryComponent this) (item a)), calls,
        [CallGetNumItems].
      split; [exact Hrun |].
      apply EquipItem_already_equipped. reflexivity.
Qed.

(** ** Series of calls *)

Lemma perform_held (this : Character) (c : InventoryCall) :
  is_null (EquippedItem this) = false ->
  exists (this' : Character) (calls : list StoreCall),
    perform c this = Returns tt this' calls
    /\ EquippedItem this' = EquippedItem this.
Proof.
  intros Hheld. destruct c as [InItem | InItem | Slot | | | |];
    cbn [perform];
    try (exists this, []; split; reflexivity).
  - destruct (Z.lt_ge_cases (count this) Count) as [Hroom | Hfull];
      unfold bind.
    + rewrite (AddInventoryItem_room this InItem Hroom).
      eexists _, _. split; reflexivity.
    + rewrite (AddInventoryItem_full this InItem Hfull).
      eexists _, _. split; reflexivity.
  - exists this, [CallGetNumItems].
    split; [apply EquipItem_already_equipped; exact Hheld | reflexivity].
Qed.

(** X6: once [EquippedItem] is non-null, no series of inventory calls
    changes it, whatever the calls are (add, remove, equip, unequip,
    drop, draw, holster), whatever their arguments, and whatever the
    component's [AddItem] does: the series runs to its end and
    [EquippedItem] is the same handle as before. *)
Theorem perform_all_keeps_held_item (cs : list InventoryCall) :
  forall this : Character,
    is_null (EquippedItem this) = false ->
    exists (this' : Character) (calls : list StoreCall),
      perform_all cs this = Returns tt this' calls
      /\ EquippedItem this' = EquippedItem this.
Proof.
  induction cs as [| c rest IH]; intros this Hheld; cbn [perform_all].
  - exists this, []. split; reflexivity.
  - destruct (perform_held this c Hheld) as (this1 & calls1 & Hc & Heq1).
    destruct (IH this1) as (this2 & calls2 & Hrest & Heq2).
    { rewrite Heq1. exact Hheld. }
    exists this2, (calls1 ++ calls2). split.
    + unfold bind. rewrite Hc, Hrest. reflexivity.
    + rewrite Heq2. exact Heq1.
Qed.

End Frames.

(** * With a component that appends *)

Section Appending.
Context {Store : Type} `{UInventoryComponent Store}.
Hypothesis AddItem_appends :
  forall (p : ItemPtr) (s : Store), GetItems (AddItem p s) = GetItems s ++ [p].

Abbreviation Character := (AInventoryDemoCharacter Store).

Lemma count_items (this : Character) :
  count this = Z.of_nat (length (items this)).
Proof. unfold count, items. apply GetNumItems_length. Qed.

Lemma AddInventoryItem_appending (this : Character) (InItem : ItemPtr) :
  exists (this' : Character) (calls : list StoreCall),
    AddInventoryItem InItem this = Returns (count this <? 2) this' calls
    /\ items this'
       = (if count this <? 2 then items this ++ [InItem] else items this)
    /\ EquippedItem this' = EquippedItem this
    /\ ((count this <? 2) = false -> this' = this).
Proof.
  destruct (Z.lt_ge_cases (count this) Count) as [Hroom | Hfull].
  - rewrite (AddInventoryItem_room this InItem Hroom).
    assert (Hb : (GetNumItems (AddItem InItem (InventoryComponent this))
                  >? count this) = true).
    { rewrite Z.gtb_ltb. apply Z.ltb_lt. unfold count.
      rewrite !GetNumItems_length, AddItem_appends, length_app.
      cbn [length]. lia. }
    assert (Hc : (count this <? 2) = true) by (apply Z.ltb_lt; exact Hroom).
    rewrite Hb, Hc. eexists _, _. split; [reflexivity |].
    split; [| split; [reflexivity | discriminate]].
    unfold items. cbn [InventoryComponent]. apply AddItem_appends.
  - rewrite (AddInventoryItem_full this InItem Hfull).
    assert (Hc : (count this <? 2) = false).
    { apply Z.ltb_ge. unfold Count in Hfull. exact Hfull. }
    rewrite Hc. exists this, [CallGetNumItems; CallGetNumItems].
    repeat split.
Qed.

(** X7: with a component whose [AddItem] appends, the result of
    [AddInventoryItem] tells exactly whether there was room: it is
    [true] iff fewer than 2 items were stored; on [true] the handle is
    the new last item, on [false] the character is exactly as it was. *)
Theorem AddInventoryItem_accepts_iff_room
    (this : Character) (InItem : ItemPtr) :
  exists (b : bool) (this' : Character) (calls : list StoreCall),
    AddInventoryItem InItem this = Returns b this' calls
    /\ (b = true <-> count this < 2)
    /\ (b = true -> items this' = items this ++ [InItem])
    /\ (b = false -> this' = this).
Proof.
  destruct (AddInventoryItem_appending this InItem)
    as (this' & calls & Hrun & Hitems & _ & Hsame).
  exists (count this <? 2), this', calls.
  split; [exact Hrun |]. split; [apply Z.ltb_lt |].
  split.
  - intros Hb. rewrite Hb in Hitems. exact Hitems.
  - exact Hsame.
Qed.

Lemma firstn_two_app (l r : list ItemPtr) (x : ItemPtr) :
  (length l <= 2)%nat ->
  firstn 2 ((if Z.of_nat (length l) <? 2 then l ++ [x] else l) ++ r)
  = firstn 2 (l ++ x :: r).
Proof.
  intros Hlen.
  destruct (Z.ltb_spec (Z.of_nat (length l)) 2) as [Hlt | Hge].
  - rewrite <- app_assoc. reflexivity.
  - assert (Htwo : length l = 2%nat) by lia.
    rewrite !firstn_app, Htwo. reflexivity.
Qed.

Lemma AddInventoryItems_appending (InItems : list ItemPtr) :
  forall this : Character,
    count this <= 2 ->
    exists (this' : Character) (calls : list StoreCall),
      AddInventoryItems InItems this = Returns tt this' calls
      /\ items this' = firstn 2 (items this ++ InItems)
      /\ EquippedItem this' = EquippedItem this.
Proof.
  induction InItems as [| InItem rest IH]; intros this Hbound;
    cbn [AddInventoryItems]; rewrite count_items in Hbound.
  - exists this, []. split; [reflexivity |]. split; [| reflexivity].
    rewrite app_nil_r, firstn_all2; [reflexivity | lia].
  - destruct (AddInventoryItem_appending this InItem)
      as (this1 & calls1 & Hadd & Hitems1 & Heq1 & _).
    destruct (IH this1) as (this2 & calls2 & Hrest & Hitems2 & Heq2).
    { rewrite count_items, Hitems1, count_items.
      destruct (Z.ltb_spec (Z.of_nat (length (items this))) 2);
        [rewrite length_app; cbn [length] |]; lia. }
    exists this2, (calls1 ++ calls2). split; [| split].
    + unfold bind. rewrite Hadd, Hrest. reflexivity.
    + rewrite Hitems2, Hitems1, count_items. apply firstn_two_app. lia.
    + rewrite Heq2. exact Heq1.
Qed.

(** X8: with a component whose [AddItem] appends, a series of
    [AddInventoryItem] calls on an empty inventory stores exactly the
    first two handles of the series, in the order given; the later ones
    are dropped, and [EquippedItem] is not touched. *)
Theorem AddInventoryItems_keeps_first_two
    (this : Character) (InItems : list ItemPtr) :
  items this = [] ->
  exists (this' : Character) (calls : list StoreCall),
    AddInventoryItems InItems this = Returns tt this' calls
    /\ items this' = firstn 2 InItems
    /\ EquippedItem this' = EquippedItem this.
Proof.
  intros Hempty.
  destruct (AddInventoryItems_appending InItems this)
    as (this' & calls & Hrun & Hitems & Heq).
  { rewrite count_items, Hempty. cbn. lia. }
  rewrite Hempty in Hitems. exists this', calls.
  split; [exact Hrun | split; [exact Hitems | exact Heq]].
Qed.

Lemma TArray_at_two (p q : ItemPtr) :
  TArray_at [p; q] 0 = Some p /\ TArray_at [p; q] 1 = Some q.
Proof. split; reflexivity. Qed.

(** X9: insertion order is slot order.  With a component whose [AddItem]
    appends, on an empty inventory with nothing equipped, adding [p] and
    then [q] and asking for Primary equips [p], and asking for Secondary
    instead equips [q]. *)
Theorem add_two_then_equip (this : Character) (p q : ItemPtr) :
  items this = [] ->
  is_null (EquippedItem this) = true ->
  (exists (this' : Character) (calls : list StoreCall),
      (AddInventoryItems [p; q] ;; EquipItem Primary) this
      = Returns tt this' calls
      /\ EquippedItem this' = p /\ items this' = [p; q])
  /\ (exists (this' : Character) (calls : list StoreCall),
         (AddInventoryItems [p; q] ;; EquipItem Secondary) this
         = Returns tt this' calls
         /\ EquippedItem this' = q /\ items this' = [p; q]).
Proof.
  intros Hempty Hfree.
  destruct (AddInventoryItems_appending [p; q] this)
    as (this1 & calls1 & Hrun & Hitems & Heq).
  { rewrite count_items, Hempty. cbn. lia. }
  rewrite Hempty in Hitems. cbn in Hitems.
  assert (Hfree1 : is_null (EquippedItem this1) = true)
    by (rewrite Heq; exact Hfree).
  assert (Hcount1 : count this1 = 2)
    by (rewrite count_items, Hitems; reflexivity).
  destruct (TArray_at_two p q) as [Hfirst Hsecond].
  split.
  - destruct (EquipItem_first this1 Primary) as (p' & Hp' & Hequip);
      [lia | exact Hfree1 | left; reflexivity |].
    rewrite Hitems, Hfirst in Hp'. injection Hp' as <-.
    eexists _, _. split; [| split].
    + unfold bind. rewrite Hrun, Hequip. reflexivity.
    + reflexivity.
    + exact Hitems.
  - destruct (EquipItem_Secondary_present this1) as (q' & Hq' & Hequip);
      [lia | exact Hfree1 |].
    rewrite Hitems, Hsecond in Hq'. injection Hq' as <-.
    eexists _, _. split; [| split].
    + unfold bind. rewrite Hrun, Hequip. reflexivity.
    + reflexivity.
    + exact Hitems.
Qed.

Lemma perform_sound (this : Character) (c : InventoryCall) :
  count this <= 2 ->
  EquippedItem this = nullptr \/ In (EquippedItem this) (items this) ->
  exists (this' : Character) (calls : list StoreCall)
         (added : list ItemPtr),
    perform c this = Returns tt this' calls
    /\ count this' <= 2
    /\ (EquippedItem this' = nullptr
        \/ In (EquippedItem this') (items this'))
    /\ items this' = items this ++ added.
Proof.
  intros Hbound Hstored.
  destruct c as [InItem | InItem | Slot | | | |]; cbn [perform];
    try (exists this, [], []; rewrite app_nil_r; repeat split; assumption).
  - destruct (AddInventoryItem_appending this InItem)
      as (this1 & calls1 & Hadd & Hitems1 & Heq1 & _).
    exists this1, (calls1 ++ []),
      (if count this <? 2 then [InItem] else []).
    split; [unfold bind; rewrite Hadd; reflexivity |].
    rewrite Heq1, Hitems1. rewrite (count_items this1), Hitems1.
    rewrite count_items in Hbound.
    destruct (Z.ltb_spec (count this) 2) as [Hlt | Hge].
    + rewrite count_items in Hlt. rewrite length_app. cbn [length].
      split; [lia |]. split; [| reflexivity].
      destruct Hstored as [Hnull | Hin]; [left; exact Hnull |].
      right. apply in_or_app. left. exact Hin.
    + rewrite app_nil_r. repeat split; assumption.
  - destruct (EquipItem_outcome this Slot)
      as (p & calls & Hrun & Hp & _).
    exists (mkCharacter (InventoryComponent this) p), calls, [].
    split; [exact Hrun |]. rewrite app_nil_r.
    split; [exact Hbound |]. split; [| reflexivity].
    change (p = nullptr \/ In p (items this)).
    destruct Hp as [-> | (_ & _ & Hin)]; [exact Hstored | right; exact Hin].
Qed.

(** X10: with a component whose [AddItem] appends, no series of
    inventory calls breaks the inventory.  Started with at most 2 items
    and with [EquippedItem] null or one of the stored handles, every
    series runs to its end (no array access is out of range), and
    afterwards there are still at most 2 items, [EquippedItem] is still
    null or one of the stored handles, and the items stored before are
    still there, in place, with any new ones after them. *)
Theorem perform_all_keeps_inventory_sound (cs : list InventoryCall) :
  forall this : Character,
    count this <= 2 ->
    EquippedItem this = nullptr \/ In (EquippedItem this) (items this) ->
    exists (this' : Character) (calls : list StoreCall)
           (added : list ItemPtr),
      perform_all cs this = Returns tt this' calls
      /\ count this' <= 2
      /\ (EquippedItem this' = nullptr
          \/ In (EquippedItem this') (items this'))
      /\ items this' = items this ++ added.
Proof.
  induction cs as [| c rest IH]; intros this Hbound Hstored;
    cbn [perform_all].
  - exists this, [], []. rewrite app_nil_r. repeat split; assumption.
  - destruct (perform_sound this c Hbound Hstored)
      as (this1 & calls1 & added1 & Hc & Hbound1 & Hstored1 & Hitems1).
    destruct (IH this1 Hbound1 Hstored1)
      as (this2 & calls2 & added2 & Hrest & Hbound2 & Hstored2 & Hitems2).
    exists this2, (calls1 ++ calls2), (added1 ++ added2).
    split; [unfold bind; rewrite Hc, Hrest; reflexivity |].
    split; [exact Hbound2 |]. split; [exact Hstored2 |].
    rewrite Hitems2, Hitems1, app_assoc. reflexivity.
Qed.

End Appending.

(** * Scenarios on the appending component *)

(** Scenario A: the first item is accepted and can then be equipped. *)
Example scenario_A_add :
  AddInventoryItem itemX (holding [] nullptr)
  = Returns true (holding [itemX] nullptr)
      [CallGetNumItems; CallAddItem itemX; CallGetNumItems].
Proof. reflexivity. Qed.

Example scenario_A_equip :
  (AddInventoryItem itemX ;; EquipItem Primary) (holding [] nullptr)
  = Returns tt (holding [itemX] itemX)
      [CallGetNumItems; CallAddItem itemX; CallGetNumItems;
       CallGetNumItems; CallGetItems].
Proof. reflexivity. Qed.

(** With two items the Secondary slot selects the second one. *)
Example equip_Secondary_of_two :
  EquipItem Secondary (holding [itemX; itemY] nullptr)
  = Returns tt (holding [itemX; itemY] itemY)
      [CallGetNumItems; CallGetNumItems; CallGetItems].
Proof. reflexivity. Qed.

(** A slot value that is none of the enumerators takes the [default]
    branch. *)
Example equip_unknown_slot :
  EquipItem 7 (holding [itemX; itemY] nullptr)
  = Returns tt (holding [itemX; itemY] nullptr) [CallGetNumItems].
Proof. reflexivity. Qed.

(** Three additions to an empty component: the third is refused. *)
Example three_additions :
  AddInventoryItems [itemX; itemY; itemZ] (holding [] nullptr)
  = Returns tt (holding [itemX; itemY] nullptr)
      [CallGetNumItems; CallAddItem itemX; CallGetNumItems;
       CallGetNumItems; CallAddItem itemY; CallGetNumItems;
       CallGetNumItems; CallGetNumItems].
Proof. reflexivity. Qed.

(** The appending component appends. *)
Lemma AppendStore_appends (p : ItemPtr) (s : list ItemPtr) :
  GetItems (AddItem p s) = GetItems s ++ [p].
Proof. reflexivity. Defined.

(** The capacity bound at work: the appending component, three
    additions. *)
Lemma AddInventoryItem_count_at_most_two_on_three_additions :
  (forall (p : ItemPtr) (s : list ItemPtr),
      GetItems (AddItem p s) = GetItems s ++ [p])
  /\ exists this' calls,
       AddInventoryItems [itemX; itemY; itemZ] (holding [] nullptr)
       = Returns tt this' calls
       /\ count this' <= 2.
Proof.
  split.
  - exact AppendStore_appends.
  - apply (proj2 (AddInventoryItem_count_at_most_two AppendStore_appends)).
    reflexivity.
Defined.

(** Scenario C: a third item is refused and nothing changes. *)
Lemma scenario_C_add_when_full :
  count (holding [itemX; itemY] nullptr) >= 2
  /\ AddInventoryItem itemZ (holding [itemX; itemY] nullptr)
     = Returns false (holding [itemX; itemY] nullptr)
         [CallGetNumItems; CallGetNumItems].
Proof.
  split.
  - unfold count. cbn. lia.
  - apply AddInventoryItem_at_capacity_noop. unfold count. cbn. lia.
Defined.

(** Equipping from an empty inventory. *)
Lemma equip_with_empty_inventory :
  count (holding [] nullptr) = 0
  /\ EquipItem Primary (holding [] nullptr)
     = Returns tt (holding [] nullptr) [CallGetNumItems].
Proof.
  split.
  - reflexivity.
  - apply EquipItem_empty_inventory_noop. reflexivity.
Defined.

(** Scenario B: one item, the Secondary slot is requested. *)
Lemma scenario_B_equip_Secondary_of_one :
  count (holding [itemX] nullptr) = 1
  /\ is_null (EquippedItem (holding [itemX] nullptr)) = true
  /\ EquipItem Secondary (holding [itemX] nullptr)
     = Returns tt (holding [itemX] nullptr)
         [CallGetNumItems; CallGetNumItems].
Proof.
  split; [reflexivity |]. split; [reflexivity |].
  apply EquipItem_Secondary_single_item_noop; reflexivity.
Defined.

(** Scenario E: the Count sentinel selects the first item. *)
Lemma scenario_E_equip_Count :
  count (holding [itemX; itemY] nullptr) > 0
  /\ is_null (EquippedItem (holding [itemX; itemY] nullptr)) = true
  /\ exists p,
       TArray_at (items (holding [itemX; itemY] nullptr)) 0 = Some p
       /\ EquipItem Count (holding [itemX; itemY] nullptr)
          = Returns tt
              (mkCharacter
                 (InventoryComponent (holding [itemX; itemY] nullptr)) p)
              [CallGetNumItems; CallGetItems]
       /\ EquipItem Count (holding [itemX; itemY] nullptr)
          = EquipItem Primary (holding [itemX; itemY] nullptr).
Proof.
  split; [reflexivity |]. split; [reflexivity |].
  apply EquipItem_Count_same_as_Primary; reflexivity.
Defined.

(** Scenario A, the equip step, by the general statement. *)
Lemma scenario_A_equip_Primary :
  count (holding [itemX] nullptr) > 0
  /\ is_null (EquippedItem (holding [itemX] nullptr)) = true
  /\ Forall (fun h => is_null h = false) (items (holding [itemX] nullptr))
  /\ exists p this',
       TArray_at (items (holding [itemX] nullptr)) 0 = Some p
       /\ EquipItem Primary (holding [itemX] nullptr)
          = Returns tt this' [CallGetNumItems; CallGetItems]
       /\ InventoryComponent this'
          = InventoryComponent (holding [itemX] nullptr)
       /\ EquippedItem this' = p
       /\ is_null (EquippedItem this') = false.
Proof.
  assert (Hhandles :
            Forall (fun h => is_null h = false)
              (items (holding [itemX] nullptr))).
  { constructor; [reflexivity | constructor]. }
  split; [reflexivity |]. split; [reflexivity |].
  split; [exact Hhandles |].
  apply EquipItem_Primary_equips_first_item;
    [reflexivity | reflexivity | exact Hhandles].
Defined.

(** Scenario D and beyond: an item is held, equip requests change
    nothing, and neither does unequip. *)
Lemma scenario_D_equip_while_held :
  is_null (EquippedItem (holding [itemX; itemY] itemX)) = false
  /\ (forall Slot,
         EquipItem Slot (holding [itemX; itemY] itemX)
         = Returns tt (holding [itemX; itemY] itemX) [CallGetNumItems])
  /\ UnequipItem (holding [itemX; itemY] itemX)
     = Returns tt (holding [itemX; itemY] itemX) []
  /\ (forall rs, exists calls,
         serve_all rs (holding [itemX; itemY] itemX)
         = Returns tt (holding [itemX; itemY] itemX) calls).
Proof.
  split; [reflexivity |].
  apply EquippedItem_held_is_kept. reflexivity.
Defined.

(** [UnequipItem] does not empty [EquippedItem]: after equipping the
    first of two items and unequipping, the first item is still
    equipped, and a following request for the Secondary slot is still
    turned down. *)
Lemma UnequipItem_leaves_item_equipped :
  (exists this',
      UnequipItem (holding [itemX; itemY] itemX) = Returns tt this' []
      /\ EquippedItem this' = itemX
      /\ is_null (EquippedItem this') = false)
  /\ serve_all [RequestEquip Primary; RequestUnequip; RequestEquip Secondary]
       (holding [itemX; itemY] nullptr)
     = Returns tt (holding [itemX; itemY] itemX)
         [CallGetNumItems; CallGetItems; CallGetNumItems].
Proof.
  split.
  - exists (holding [itemX; itemY] itemX). repeat split; reflexivity.
  - reflexivity.
Qed.

(** * Further scenarios on the appending component *)

(** Two items stored, nothing equipped: Secondary selects the second. *)
Lemma equip_Secondary_of_two_by_rule :
  count (holding [itemX; itemY] nullptr) > 1
  /\ is_null (EquippedItem (holding [itemX; itemY] nullptr)) = true
  /\ exists p,
       TArray_at (items (holding [itemX; itemY] nullptr)) 1 = Some p
       /\ EquipItem Secondary (holding [itemX; itemY] nullptr)
          = Returns tt
              (mkCharacter
                 (InventoryComponent (holding [itemX; itemY] nullptr)) p)
              [CallGetNumItems; CallGetNumItems; CallGetItems].
Proof.
  split; [reflexivity |]. split; [reflexivity |].
  apply EquipItem_Secondary_takes_second; reflexivity.
Defined.

(** The slot value 7 names no slot. *)
Lemma equip_slot_seven :
  7 <> Primary /\ 7 <> Secondary /\ 7 <> Count
  /\ EquipItem 7 (holding [itemX; itemY] nullptr)
     = Returns tt (holding [itemX; itemY] nullptr) [CallGetNumItems].
Proof.
  assert (HP : 7 <> Primary) by (unfold Primary; lia).
  assert (HS : 7 <> Secondary) by (unfold Secondary; lia).
  assert (HC : 7 <> Count) by (unfold Count; lia).
  split; [exact HP |]. split; [exact HS |]. split; [exact HC |].
  apply EquipItem_unlisted_slot_noop; assumption.
Defined.

(** An item is held through a mixed series of calls. *)
Lemma held_item_through_a_series :
  is_null (EquippedItem (holding [itemX] itemX)) = false
  /\ exists this' calls,
       perform_all
         [DoAddInventoryItem itemY; DoEquipItem Secondary; DoUnequipItem;
          DoDropItem; DoRemoveInventoryItem itemX; DoHolsterItem;
          DoDrawItem; DoEquipItem Count]
         (holding [itemX] itemX)
       = Returns tt this' calls
       /\ EquippedItem this' = EquippedItem (holding [itemX] itemX).
Proof.
  split; [reflexivity |].
  apply perform_all_keeps_held_item. reflexivity.
Defined.

(** Room for one more, and no room. *)
Lemma add_with_and_without_room :
  (forall (p : ItemPtr) (s : list ItemPtr),
      GetItems (AddItem p s) = GetItems s ++ [p])
  /\ exists b this' calls,
       AddInventoryItem itemY (holding [itemX] nullptr)
       = Returns b this' calls
       /\ (b = true <-> count (holding [itemX] nullptr) < 2)
       /\ (b = true
           -> items this' = items (holding [itemX] nullptr) ++ [itemY])
       /\ (b = false -> this' = holding [itemX] nullptr).
Proof.
  split; [exact AppendStore_appends |].
  apply (AddInventoryItem_accepts_iff_room AppendStore_appends).
Defined.

(** Four additions to an empty inventory. *)
Lemma four_additions_keep_first_two :
  (forall (p : ItemPtr) (s : list ItemPtr),
      GetItems (AddItem p s) = GetItems s ++ [p])
  /\ items (holding [] nullptr) = []
  /\ exists this' calls,
       AddInventoryItems [itemZ; itemX; itemY; itemX] (holding [] nullptr)
       = Returns tt this' calls
       /\ items this' = firstn 2 [itemZ; itemX; itemY; itemX]
       /\ EquippedItem this' = EquippedItem (holding [] nullptr).
Proof.
  split; [exact AppendStore_appends |]. split; [reflexivity |].
  apply (AddInventoryItems_keeps_first_two AppendStore_appends).
  reflexivity.
Defined.

(** Adding X then Y, and equipping either slot. *)
Lemma add_X_Y_then_equip :
  (forall (p : ItemPtr) (s : list ItemPtr),
      GetItems (AddItem p s) = GetItems s ++ [p])
  /\ items (holding [] nullptr) = []
  /\ is_null (EquippedItem (holding [] nullptr)) = true
  /\ (exists this' calls,
         (AddInventoryItems [itemX; itemY] ;; EquipItem Primary)
           (holding [] nullptr)
         = Returns tt this' calls
         /\ EquippedItem this' = itemX /\ items this' = [itemX; itemY])
  /\ (exists this' calls,
         (AddInventoryItems [itemX; itemY] ;; EquipItem Secondary)
           (holding [] nullptr)
         = Returns tt this' calls
         /\ EquippedItem this' = itemY /\ items this' = [itemX; itemY]).
Proof.
  split; [exact AppendStore_appends |]. split; [reflexivity |].
  split; [reflexivity |].
  apply (add_two_then_equip AppendStore_appends); reflexivity.
Defined.

(** A mixed series on a sound inventory. *)
Lemma sound_inventory_through_a_series :
  (forall (p : ItemPtr) (s : list ItemPtr),
      GetItems (AddItem p s) = GetItems s ++ [p])
  /\ count (holding [itemX] nullptr) <= 2
  /\ (EquippedItem (holding [itemX] nullptr) = nullptr
      \/ In (EquippedItem (holding [itemX] nullptr))
           (items (holding [itemX] nullptr)))
  /\ exists this' calls added,
       perform_all
         [DoDropItem; DoEquipItem Secondary; DoAddInventoryItem itemY;
          DoEquipItem Secondary; DoAddInventoryItem itemZ; DoUnequipItem;
          DoRemoveInventoryItem itemY]
         (holding [itemX] nullptr)
       = Returns tt this' calls
       /\ count this' <= 2
       /\ (EquippedItem this' = nullptr
           \/ In (EquippedItem this') (items this'))
       /\ items this' = items (holding [itemX] nullptr) ++ added.
Proof.
  assert (Hbound : count (holding [itemX] nullptr) <= 2)
    by (unfold count; cbn; lia).
  split; [exact AppendStore_appends |]. split; [exact Hbound |].
  split; [left; reflexivity |].
  apply (perform_all_keeps_inventory_sound AppendStore_appends).
  - exact Hbound.
  - left. reflexivity.
Defined.
